(** * Runtime capability detection and kernel dispatch of BLAKE3
    (c/blake3_dispatch.c), shallow embedding. *)

From Stdlib Require Import ZArith List Bool Lia.
Import ListNotations.
Open Scope Z_scope.

(** ** Capability sets *)

(** Modelled from the spec: the enumeration [enum cpu_feature] lives in a
    header that is not part of src/.  §3 describes it as a bitmask over the
    tiers SSE2, SSSE3, SSE41, AVX, AVX2, AVX512F, AVX512VL plus a distinct
    [UNDEFINED] sentinel; each tier is one bit, in that order. *)
Definition SSE2 : Z := Z.shiftl 1 0.
Definition SSSE3 : Z := Z.shiftl 1 1.
Definition SSE41 : Z := Z.shiftl 1 2.
Definition AVX : Z := Z.shiftl 1 3.
Definition AVX2 : Z := Z.shiftl 1 4.
Definition AVX512F : Z := Z.shiftl 1 5.
Definition AVX512VL : Z := Z.shiftl 1 6.
Definition UNDEFINED : Z := Z.shiftl 1 30.

(** C's [if (x & m)]: the masked value is non-zero. *)
Definition test (x m : Z) : bool := negb (Z.land x m =? 0).

(** ** Hardware probe inputs *)

Record regs := mkRegs { eax : Z; ebx : Z; ecx : Z; edx : Z }.

(** What the [cpuid], [cpuidex] and [xgetbv] instructions answer on the host. *)
Record hardware := mkHardware {
  hw_cpuid : Z -> regs;
  hw_cpuidex : Z -> Z -> regs;
  hw_xcr0_eax : Z;
  hw_xcr0_edx : Z
}.

(** [xgetbv]: [((uint64_t)edx << 32) | eax]. *)
Definition xgetbv (hw : hardware) : Z :=
  Z.lor (Z.shiftl (hw_xcr0_edx hw) 32) (hw_xcr0_eax hw).

(** [const int max_id = *eax;]: a [uint32_t] read as a 32-bit [int]. *)
Definition int_of_u32 (x : Z) : Z :=
  if x <? 2 ^ 31 then x else x - 2 ^ 32.

(** The preprocessor symbols that shape the build. *)
Record config := mkConfig {
  IS_X86 : bool;
  MSC_VER : bool;        (* defined(_MSC_VER) *)
  AMD64 : bool;          (* defined(__amd64__) || defined(_M_X64) *)
  WIN32 : bool;          (* defined(_WIN32) *)
  NO_AVX512 : bool;      (* defined(BLAKE3_NO_AVX512) *)
  NO_AVX2 : bool;        (* defined(BLAKE3_NO_AVX2) *)
  NO_SSE41 : bool;       (* defined(BLAKE3_NO_SSE41) *)
  NO_SSE2 : bool;        (* defined(BLAKE3_NO_SSE2) *)
  USE_NEON : bool        (* BLAKE3_USE_NEON == 1 *)
}.

(** Lines 123-158 of [blake3_get_cpu_features]: the bit decoding of the
    [cpuid]/[xgetbv] answers, starting from [features = 0]. *)
Definition detect_features (cfg : config) (hw : hardware) : Z :=
  let features := 0 in
  let r0 := hw_cpuid hw 0 in
  let max_id := int_of_u32 (eax r0) in
  let r1 := hw_cpuid hw 1 in
  let features :=
    if AMD64 cfg then Z.lor features SSE2
    else if test (edx r1) (Z.shiftl 1 26) then Z.lor features SSE2
    else features in
  let features :=
    if test (ecx r1) (Z.shiftl 1 9) then Z.lor features SSSE3 else features in
  let features :=
    if test (ecx r1) (Z.shiftl 1 19) then Z.lor features SSE41 else features in
  if test (ecx r1) (Z.shiftl 1 27) then (* OSXSAVE *)
    let mask := xgetbv hw in
    if Z.land mask 6 =? 6 then (* SSE and AVX states *)
      let features :=
        if test (ecx r1) (Z.shiftl 1 28) then Z.lor features AVX else features in
      if max_id >=? 7 then
        let r7 := hw_cpuidex hw 7 0 in
        let features :=
          if test (ebx r7) (Z.shiftl 1 5) then Z.lor features AVX2 else features in
        if Z.land mask 224 =? 224 then (* Opmask, ZMM_Hi256, Hi16_Zmm *)
          let features :=
            if test (ebx r7) (Z.shiftl 1 31) then Z.lor features AVX512VL
            else features in
          if test (ebx r7) (Z.shiftl 1 16) then Z.lor features AVX512F
          else features
        else features
      else features
    else features
  else features.

(** ** Process state, effects and a state/log monad *)

(** The two globals the function touches: [g_blake3_cpu_features] (defined
    here, initialised to [UNDEFINED]) and [g_cpu_features] (named by the
    non-MSVC load on line 117, not defined in this file). *)
Inductive cell := C_g_blake3_cpu_features | C_g_cpu_features.

Record state := mkState {
  g_blake3_cpu_features : Z;
  g_cpu_features : Z
}.

Definition init_state : state := mkState UNDEFINED UNDEFINED.

Definition read_cell (c : cell) (st : state) : Z :=
  match c with
  | C_g_blake3_cpu_features => g_blake3_cpu_features st
  | C_g_cpu_features => g_cpu_features st
  end.

Definition write_cell (c : cell) (v : Z) (st : state) : state :=
  match c with
  | C_g_blake3_cpu_features => mkState v (g_cpu_features st)
  | C_g_cpu_features => mkState (g_blake3_cpu_features st) v
  end.

Inductive op := OpCompressInPlace | OpCompressXof | OpXofMany | OpHashMany.

(** The kernel tiers that have an implementation of some operation. *)
Inductive tier := Portable | Sse2 | Sse41 | Avx2 | Avx512 | Neon.

(** Observable effects: loads and stores of the globals, a run of the
    [cpuid]/[xgetbv] probe, and a call into a kernel. *)
Inductive event :=
| ELoad (c : cell)
| EStore (c : cell) (v : Z)
| EProbe
| EKernel (o : op) (t : tier).

Definition M (A : Type) : Type := state -> A * state * list event.

Definition ret {A} (a : A) : M A := fun st => (a, st, []).

Definition bind {A B} (m : M A) (k : A -> M B) : M B :=
  fun st =>
    let '(a, st1, e1) := m st in
    let '(b, st2, e2) := k a st1 in
    (b, st2, e1 ++ e2).

Notation "x <- m ;; k" := (bind m (fun x => k))
  (at level 61, m at next level, right associativity).
Notation "m ;;; k" := (bind m (fun _ => k))
  (at level 61, right associativity).

Definition load (c : cell) : M Z := fun st => (read_cell c st, st, [ELoad c]).
Definition store (c : cell) (v : Z) : M unit :=
  fun st => (tt, write_cell c v st, [EStore c v]).
Definition emit (e : event) : M unit := fun st => (tt, st, [e]).

Definition result {A} (r : A * state * list event) : A := fst (fst r).
Definition final {A} (r : A * state * list event) : state := snd (fst r).
Definition events {A} (r : A * state * list event) : list event := snd r.

(** ** [blake3_get_cpu_features] *)

(** The global the load reads: [g_blake3_cpu_features] under MSVC
    (line 114), [g_cpu_features] otherwise (line 117). *)
Definition load_cell (cfg : config) : cell :=
  if MSC_VER cfg then C_g_blake3_cpu_features else C_g_cpu_features.

(** Both store paths (lines 162 and 164) target [g_blake3_cpu_features]. *)
Definition blake3_get_cpu_features (cfg : config) (hw : hardware) : M Z :=
  features <- load (load_cell cfg) ;;
  if negb (features =? UNDEFINED) then ret features
  else
    emit EProbe ;;;
    let features := detect_features cfg hw in
    store C_g_blake3_cpu_features features ;;;
    ret features.

(** ** Kernels *)

(** The common signature every tier's kernel module exports (§6).  A
    chaining value is a list of 8 words, a block a list of 64 bytes; the
    extended output of a compression is given byte by byte ([j] in
    [0, 64)). *)
Record kernels := mkKernels {
  k_compress_in_place : list Z -> list Z -> Z -> Z -> Z -> list Z;
  k_compress_xof : list Z -> list Z -> Z -> Z -> Z -> Z -> Z;
  k_hash_many : list (list Z) -> nat -> nat -> list Z -> Z -> bool ->
                Z -> Z -> Z -> list Z
}.

(** A byte-addressed output buffer. *)
Definition buffer := Z -> Z.

(** Write the 64 bytes [blk 0 .. blk 63] at address [out]. *)
Definition write64 (mem : buffer) (out : Z) (blk : Z -> Z) : buffer :=
  fun a => if (out <=? a) && (a <? out + 64) then blk (a - out) else mem a.

(** [counter + i] on [uint64_t]. *)
Definition u64 (x : Z) : Z := x mod 2 ^ 64.

(** Write [fuel] consecutive extended-output blocks, block [i] at
    [out + 64*i] for counter [counter + i]. *)
Fixpoint write_xof_blocks (K : kernels) (cv block : list Z)
    (block_len counter flags out : Z) (i fuel : nat) (mem : buffer) : buffer :=
  match fuel with
  | O => mem
  | S f =>
      write_xof_blocks K cv block block_len counter flags out (S i) f
        (write64 mem (out + 64 * Z.of_nat i)
           (k_compress_xof K cv block block_len (u64 (counter + Z.of_nat i)) flags))
  end.

Section Dispatch.

Variable portable : kernels.
Variable cfg : config.
Variable hw : hardware.

(** Modelled from the spec: the vector-tier kernels
    ([blake3_*_sse2], [_sse41], [_avx2], [_avx512], [_neon]) are not in
    src/.  §4.5 and §6: every tier is a drop-in substitute with the same
    signature and bit-identical output, i.e. it computes what the portable
    kernel computes. *)
Definition tier_kernel (t : tier) : kernels := portable.

(** Modelled from the spec: [blake3_xof_many_avx512] is not in src/.
    §4.3: it produces [outblocks] sequential 64-byte output blocks from one
    chaining value/block pair, the counter incremented once per block. *)
Definition xof_many_avx512 (cv block : list Z) (block_len counter flags out : Z)
    (outblocks : nat) (mem : buffer) : buffer :=
  write_xof_blocks (tier_kernel Avx512) cv block block_len counter flags out
    0 outblocks mem.

Definition call_compress_in_place (t : tier) cv block block_len counter flags
    : M (list Z) :=
  emit (EKernel OpCompressInPlace t) ;;;
  ret (k_compress_in_place (tier_kernel t) cv block block_len counter flags).

Definition call_compress_xof (t : tier) cv block block_len counter flags
    (out : Z) (mem : buffer) : M buffer :=
  emit (EKernel OpCompressXof t) ;;;
  ret (write64 mem out
         (k_compress_xof (tier_kernel t) cv block block_len counter flags)).

Definition call_xof_many_avx512 cv block block_len counter flags out outblocks
    (mem : buffer) : M buffer :=
  emit (EKernel OpXofMany Avx512) ;;;
  ret (xof_many_avx512 cv block block_len counter flags out outblocks mem).

Definition call_hash_many (t : tier) inputs num_inputs blocks key counter
    increment_counter flags flags_start flags_end : M (list Z) :=
  emit (EKernel OpHashMany t) ;;;
  ret (k_hash_many (tier_kernel t) inputs num_inputs blocks key counter
         increment_counter flags flags_start flags_end).

(** [blake3_compress_in_place]: returns the updated chaining value. *)
Definition blake3_compress_in_place (cv block : list Z) (block_len counter flags : Z)
    : M (list Z) :=
  if IS_X86 cfg then
    features <- blake3_get_cpu_features cfg hw ;;
    if negb (NO_AVX512 cfg) && test features AVX512VL then
      call_compress_in_place Avx512 cv block block_len counter flags
    else if negb (NO_SSE41 cfg) && test features SSE41 then
      call_compress_in_place Sse41 cv block block_len counter flags
    else if negb (NO_SSE2 cfg) && test features SSE2 then
      call_compress_in_place Sse2 cv block block_len counter flags
    else call_compress_in_place Portable cv block block_len counter flags
  else call_compress_in_place Portable cv block block_len counter flags.

(** [blake3_compress_xof]: writes 64 bytes at [out]. *)
Definition blake3_compress_xof (cv block : list Z) (block_len counter flags : Z)
    (out : Z) (mem : buffer) : M buffer :=
  if IS_X86 cfg then
    features <- blake3_get_cpu_features cfg hw ;;
    if negb (NO_AVX512 cfg) && test features AVX512VL then
      call_compress_xof Avx512 cv block block_len counter flags out mem
    else if negb (NO_SSE41 cfg) && test features SSE41 then
      call_compress_xof Sse41 cv block block_len counter flags out mem
    else if negb (NO_SSE2 cfg) && test features SSE2 then
      call_compress_xof Sse2 cv block block_len counter flags out mem
    else call_compress_xof Portable cv block block_len counter flags out mem
  else call_compress_xof Portable cv block block_len counter flags out mem.

(** The loop [for (i = 0; i < outblocks; ++i) blake3_compress_xof(..., counter + i,
    flags, out + 64*i)], from iteration [i] with [fuel] iterations left. *)
Fixpoint xof_many_loop (cv block : list Z) (block_len counter flags out : Z)
    (i fuel : nat) (mem : buffer) : M buffer :=
  match fuel with
  | O => ret mem
  | S f =>
      mem <- blake3_compress_xof cv block block_len (u64 (counter + Z.of_nat i))
               flags (out + 64 * Z.of_nat i) mem ;;
      xof_many_loop cv block block_len counter flags out (S i) f mem
  end.

(** [blake3_xof_many]. *)
Definition blake3_xof_many (cv block : list Z) (block_len counter flags out : Z)
    (outblocks : nat) (mem : buffer) : M buffer :=
  if Nat.eqb outblocks 0 then ret mem
  else
    let loop := xof_many_loop cv block block_len counter flags out 0 outblocks mem in
    if IS_X86 cfg then
      features <- blake3_get_cpu_features cfg hw ;;
      if negb (WIN32 cfg) && negb (NO_AVX512 cfg) && test features AVX512VL then
        call_xof_many_avx512 cv block block_len counter flags out outblocks mem
      else loop
    else loop.

(** [blake3_hash_many]: returns the bytes written at [out]. *)
Definition blake3_hash_many (inputs : list (list Z)) (num_inputs blocks : nat)
    (key : list Z) (counter : Z) (increment_counter : bool)
    (flags flags_start flags_end : Z) : M (list Z) :=
  let call t := call_hash_many t inputs num_inputs blocks key counter
                  increment_counter flags flags_start flags_end in
  let after_x86 := if USE_NEON cfg then call Neon else call Portable in
  if IS_X86 cfg then
    features <- blake3_get_cpu_features cfg hw ;;
    if negb (NO_AVX512 cfg) &&
       (Z.land features (Z.lor AVX512F AVX512VL) =? Z.lor AVX512F AVX512VL) then
      call Avx512
    else if negb (NO_AVX2 cfg) && test features AVX2 then call Avx2
    else if negb (NO_SSE41 cfg) && test features SSE41 then call Sse41
    else if negb (NO_SSE2 cfg) && test features SSE2 then call Sse2
    else after_x86
  else after_x86.

(** [blake3_simd_degree]. *)
Definition blake3_simd_degree : M Z :=
  let after_x86 := if USE_NEON cfg then ret 4 else ret 1 in
  if IS_X86 cfg then
    features <- blake3_get_cpu_features cfg hw ;;
    if negb (NO_AVX512 cfg) &&
       (Z.land features (Z.lor AVX512F AVX512VL) =? Z.lor AVX512F AVX512VL) then
      ret 16
    else if negb (NO_AVX2 cfg) && test features AVX2 then ret 8
    else if negb (NO_SSE41 cfg) && test features SSE41 then ret 4
    else if negb (NO_SSE2 cfg) && test features SSE2 then ret 4
    else after_x86
  else after_x86.

End Dispatch.

(** ** Specification-side notions *)

(** The capability set a call to [blake3_get_cpu_features] returns from
    state [st]: the loaded global, or a fresh probe if it is [UNDEFINED]. *)
Definition features_view (cfg : config) (hw : hardware) (st : state) : Z :=
  let v := read_cell (load_cell cfg) st in
  if v =? UNDEFINED then detect_features cfg hw else v.

(** Every global holds [UNDEFINED] or the measured set. *)
Definition cache_ok (cfg : config) (hw : hardware) (st : state) : Prop :=
  forall c, read_cell c st = UNDEFINED \/ read_cell c st = detect_features cfg hw.

(** The kernels a run called, in order. *)
Fixpoint kernels_of (es : list event) : list (op * tier) :=
  match es with
  | [] => []
  | EKernel o t :: r => (o, t) :: kernels_of r
  | _ :: r => kernels_of r
  end.

(** §9: a priority chain is an ordered list of (predicate, tier) pairs
    scanned for the first satisfied predicate. *)
Fixpoint first_tier (cands : list (bool * tier)) (default : tier) : tier :=
  match cands with
  | [] => default
  | (b, t) :: r => if b then t else first_tier r default
  end.

(** §4.3, single-block and extended-output compression:
    AVX512VL -> SSE4.1 -> SSE2 -> portable. *)
Definition spec_single_block_tier (cfg : config) (f : Z) : tier :=
  first_tier
    [(IS_X86 cfg && negb (NO_AVX512 cfg) && test f AVX512VL, Avx512);
     (IS_X86 cfg && negb (NO_SSE41 cfg) && test f SSE41, Sse41);
     (IS_X86 cfg && negb (NO_SSE2 cfg) && test f SSE2, Sse2)]
    Portable.

(** §4.3, multi-input batch compression: AVX512F and AVX512VL -> AVX2 ->
    SSE4.1 -> SSE2 -> NEON (if targeted) -> portable. *)
Definition spec_hash_many_tier (cfg : config) (f : Z) : tier :=
  first_tier
    [(IS_X86 cfg && negb (NO_AVX512 cfg) && test f AVX512F && test f AVX512VL, Avx512);
     (IS_X86 cfg && negb (NO_AVX2 cfg) && test f AVX2, Avx2);
     (IS_X86 cfg && negb (NO_SSE41 cfg) && test f SSE41, Sse41);
     (IS_X86 cfg && negb (NO_SSE2 cfg) && test f SSE2, Sse2);
     (USE_NEON cfg, Neon)]
    Portable.

(** §4.4: inputs processed per call by each tier. *)
Definition lane_width (t : tier) : Z :=
  match t with
  | Avx512 => 16
  | Avx2 => 8
  | Sse41 | Sse2 | Neon => 4
  | Portable => 1
  end.

(** §3: the tier a compile-time toggle removes from consideration. *)
Definition toggle_allows (cfg : config) (t : tier) : bool :=
  match t with
  | Avx512 => negb (NO_AVX512 cfg)
  | Avx2 => negb (NO_AVX2 cfg)
  | Sse41 => negb (NO_SSE41 cfg)
  | Sse2 => negb (NO_SSE2 cfg)
  | Portable | Neon => true
  end.

(** ** Monad and cache lemmas *)

Lemma events_bind {A B} (m : M A) (k : A -> M B) st :
  events (bind m k st) = events (m st) ++ events (k (result (m st)) (final (m st))).
Proof.
  unfold bind, events, result, final.
  destruct (m st) as [[a s1] e1]; simpl.
  destruct (k a s1) as [[b s2] e2]; reflexivity.
Qed.

Lemma result_bind {A B} (m : M A) (k : A -> M B) st :
  result (bind m k st) = result (k (result (m st)) (final (m st))).
Proof.
  unfold bind, result, final.
  destruct (m st) as [[a s1] e1]; simpl.
  destruct (k a s1) as [[b s2] e2]; reflexivity.
Qed.

Lemma final_bind {A B} (m : M A) (k : A -> M B) st :
  final (bind m k st) = final (k (result (m st)) (final (m st))).
Proof.
  unfold bind, result, final.
  destruct (m st) as [[a s1] e1]; simpl.
  destruct (k a s1) as [[b s2] e2]; reflexivity.
Qed.

Lemma kernels_of_app l1 l2 : kernels_of (l1 ++ l2) = kernels_of l1 ++ kernels_of l2.
Proof.
  induction l1 as [|e l1 IH]; [reflexivity|].
  destruct e; simpl; rewrite ?IH; reflexivity.
Qed.

Lemma get_result cfg hw st :
  result (blake3_get_cpu_features cfg hw st) = features_view cfg hw st.
Proof.
  unfold blake3_get_cpu_features, features_view, bind, load, result; simpl.
  destruct (read_cell (load_cell cfg) st =? UNDEFINED); reflexivity.
Qed.

Lemma get_view cfg hw st :
  features_view cfg hw (final (blake3_get_cpu_features cfg hw st)) =
  features_view cfg hw st.
Proof.
  unfold blake3_get_cpu_features, features_view, load_cell, bind, load, final; simpl.
  destruct (MSC_VER cfg); simpl.
  - destruct (g_blake3_cpu_features st =? UNDEFINED) eqn:E; simpl; rewrite ?E;
      [|reflexivity].
    destruct (detect_features cfg hw =? UNDEFINED); reflexivity.
  - destruct (g_cpu_features st =? UNDEFINED) eqn:E; simpl; rewrite ?E; reflexivity.
Qed.

Lemma get_kernels cfg hw st :
  kernels_of (events (blake3_get_cpu_features cfg hw st)) = [].
Proof.
  unfold blake3_get_cpu_features, bind, load, events; simpl.
  destruct (read_cell (load_cell cfg) st =? UNDEFINED); reflexivity.
Qed.

Lemma get_cache_ok cfg hw st :
  cache_ok cfg hw st -> cache_ok cfg hw (final (blake3_get_cpu_features cfg hw st)).
Proof.
  unfold blake3_get_cpu_features, bind, load, final; simpl.
  destruct (read_cell (load_cell cfg) st =? UNDEFINED); simpl; [|tauto].
  intros H c. destruct c; simpl; auto.
  specialize (H C_g_cpu_features); exact H.
Qed.

Lemma init_cache_ok cfg hw : cache_ok cfg hw init_state.
Proof. intros c; destruct c; left; reflexivity. Qed.

Lemma view_cache_ok cfg hw st :
  cache_ok cfg hw st -> features_view cfg hw st = detect_features cfg hw.
Proof.
  unfold features_view. intros H.
  destruct (H (load_cell cfg)) as [E|E]; rewrite E; [reflexivity|].
  destruct (detect_features cfg hw =? UNDEFINED); reflexivity.
Qed.

(** ** Probe lemmas *)

Lemma int_of_u32_ge x : int_of_u32 x >= 7 -> x >= 7.
Proof.
  unfold int_of_u32. destruct (x <? 2 ^ 31) eqn:E; intros; lia.
Qed.

Lemma detect_gating cfg hw :
  let f := detect_features cfg hw in
  (test f AVX || test f AVX2 || test f AVX512F || test f AVX512VL = true ->
     test (ecx (hw_cpuid hw 1)) (Z.shiftl 1 27) = true /\ Z.land (xgetbv hw) 6 = 6) /\
  (test f AVX512F || test f AVX512VL = true ->
     eax (hw_cpuid hw 0) >= 7 /\ Z.land (xgetbv hw) 224 = 224).
Proof.
  cbv zeta. unfold detect_features.
  repeat match goal with
         | |- context [if ?c then _ else _] => let E := fresh "E" in destruct c eqn:E
         end;
  split; intro H; vm_compute in H; try discriminate H;
  repeat match goal with
         | E : (_ =? _) = true |- _ => apply Z.eqb_eq in E
         | E : (_ >=? _) = true |- _ => apply Z.geb_ge, int_of_u32_ge in E
         end; split; assumption.
Qed.

(** ** Bit lemmas *)

Lemma land_pow2 f k :
  0 <= k -> Z.land f (2 ^ k) = if Z.testbit f k then 2 ^ k else 0.
Proof.
  intros Hk. apply Z.bits_inj'. intros n Hn.
  rewrite Z.land_spec, Z.pow2_bits_eqb by lia.
  destruct (Z.eqb_spec k n) as [<-|Hne].
  - destruct (Z.testbit f k); simpl;
      [rewrite Z.pow2_bits_eqb, Z.eqb_refl by lia | rewrite Z.bits_0]; reflexivity.
  - rewrite andb_false_r.
    destruct (Z.testbit f k); [|now rewrite Z.bits_0].
    rewrite Z.pow2_bits_eqb by lia. symmetry; apply Z.eqb_neq; exact Hne.
Qed.

Lemma test_pow2 f k : 0 <= k -> test f (2 ^ k) = Z.testbit f k.
Proof.
  intros Hk. unfold test. rewrite land_pow2 by exact Hk.
  destruct (Z.testbit f k); [|reflexivity].
  assert (0 < 2 ^ k) by (apply Z.pow_pos_nonneg; lia).
  destruct (Z.eqb_spec (2 ^ k) 0); [lia|reflexivity].
Qed.

(** The [hash_many] AVX512 guard tests both bits. *)
Lemma avx512_pair_test f :
  (Z.land f (Z.lor AVX512F AVX512VL) =? Z.lor AVX512F AVX512VL) =
  test f AVX512F && test f AVX512VL.
Proof.
  change AVX512F with (2 ^ 5). change AVX512VL with (2 ^ 6).
  rewrite Z.land_lor_distr_r, !land_pow2, !test_pow2 by lia.
  destruct (Z.testbit f 5), (Z.testbit f 6); reflexivity.
Qed.

(** Setting or clearing SSSE3 does not change a test of a mask without it. *)
Lemma test_ssse3_irrelevant f1 f2 m :
  Z.lor f1 SSSE3 = Z.lor f2 SSSE3 -> Z.land m SSSE3 = 0 -> test f1 m = test f2 m.
Proof.
  intros Hf Hm.
  assert (K : forall f, test f m = test (Z.lor f SSSE3) m).
  { intros f. unfold test.
    rewrite Z.land_lor_distr_l, (Z.land_comm SSSE3 m), Hm, Z.lor_0_r.
    reflexivity. }
  rewrite (K f1), (K f2), Hf. reflexivity.
Qed.

Lemma single_block_tier_ssse3 cfg f1 f2 :
  Z.lor f1 SSSE3 = Z.lor f2 SSSE3 ->
  spec_single_block_tier cfg f1 = spec_single_block_tier cfg f2.
Proof.
  intros H. unfold spec_single_block_tier.
  rewrite !(test_ssse3_irrelevant f1 f2) by (exact H || reflexivity).
  reflexivity.
Qed.

Lemma hash_many_tier_ssse3 cfg f1 f2 :
  Z.lor f1 SSSE3 = Z.lor f2 SSSE3 ->
  spec_hash_many_tier cfg f1 = spec_hash_many_tier cfg f2.
Proof.
  intros H. unfold spec_hash_many_tier.
  rewrite !(test_ssse3_irrelevant f1 f2) by (exact H || reflexivity).
  reflexivity.
Qed.

Lemma single_block_tier_allowed cfg f :
  toggle_allows cfg (spec_single_block_tier cfg f) = true.
Proof.
  unfold spec_single_block_tier, toggle_allows; simpl.
  destruct (IS_X86 cfg), (NO_AVX512 cfg), (NO_SSE41 cfg), (NO_SSE2 cfg);
    simpl; repeat (match goal with |- context [if ?c then _ else _] => destruct c end);
    reflexivity.
Qed.

Lemma hash_many_tier_allowed cfg f :
  toggle_allows cfg (spec_hash_many_tier cfg f) = true.
Proof.
  unfold spec_hash_many_tier, toggle_allows; simpl.
  destruct (IS_X86 cfg), (NO_AVX512 cfg), (NO_AVX2 cfg), (NO_SSE41 cfg), (NO_SSE2 cfg);
    simpl; repeat (match goal with |- context [if ?c then _ else _] => destruct c end);
    reflexivity.
Qed.

(** ** Facade lemmas *)

Section FacadeLemmas.

Variable portable : kernels.
Variable cfg : config.
Variable hw : hardware.

Ltac run_get st :=
  rewrite ?events_bind, ?result_bind, ?final_bind, ?kernels_of_app,
    ?get_kernels, ?get_result, ?get_view; cbn beta.

Ltac split_ifs :=
  repeat match goal with |- context [if ?c then _ else _] => destruct c end.

Lemma compress_in_place_kernels st cv block bl ctr fl :
  kernels_of (events (blake3_compress_in_place portable cfg hw cv block bl ctr fl st)) =
  [(OpCompressInPlace, spec_single_block_tier cfg (features_view cfg hw st))].
Proof.
  unfold blake3_compress_in_place, spec_single_block_tier.
  destruct (IS_X86 cfg); simpl; [run_get st|reflexivity].
  split_ifs; reflexivity.
Qed.

Lemma compress_in_place_result st cv block bl ctr fl :
  result (blake3_compress_in_place portable cfg hw cv block bl ctr fl st) =
  k_compress_in_place portable cv block bl ctr fl.
Proof.
  unfold blake3_compress_in_place.
  destruct (IS_X86 cfg); simpl; [run_get st|reflexivity].
  split_ifs; reflexivity.
Qed.

Lemma compress_xof_kernels st cv block bl ctr fl out mem :
  kernels_of (events (blake3_compress_xof portable cfg hw cv block bl ctr fl out mem st)) =
  [(OpCompressXof, spec_single_block_tier cfg (features_view cfg hw st))].
Proof.
  unfold blake3_compress_xof, spec_single_block_tier.
  destruct (IS_X86 cfg); simpl; [run_get st|reflexivity].
  split_ifs; reflexivity.
Qed.

Lemma compress_xof_result st cv block bl ctr fl out mem :
  result (blake3_compress_xof portable cfg hw cv block bl ctr fl out mem st) =
  write64 mem out (k_compress_xof portable cv block bl ctr fl).
Proof.
  unfold blake3_compress_xof.
  destruct (IS_X86 cfg); simpl; [run_get st|reflexivity].
  split_ifs; reflexivity.
Qed.

Lemma compress_xof_view st cv block bl ctr fl out mem :
  features_view cfg hw (final (blake3_compress_xof portable cfg hw cv block bl ctr fl out mem st)) =
  features_view cfg hw st.
Proof.
  unfold blake3_compress_xof.
  destruct (IS_X86 cfg); simpl; [|reflexivity].
  rewrite final_bind.
  split_ifs; cbn; apply get_view.
Qed.


Lemma xof_many_loop_result cv block bl ctr fl out fuel :
  forall i mem st,
  result (xof_many_loop portable cfg hw cv block bl ctr fl out i fuel mem st) =
  write_xof_blocks portable cv block bl ctr fl out i fuel mem.
Proof.
  induction fuel as [|fuel IH]; intros i mem st; [reflexivity|].
  simpl. rewrite result_bind, compress_xof_result. apply IH.
Qed.

Lemma xof_many_loop_kernels cv block bl ctr fl out fuel :
  forall i mem st,
  kernels_of (events (xof_many_loop portable cfg hw cv block bl ctr fl out i fuel mem st)) =
  repeat (OpCompressXof, spec_single_block_tier cfg (features_view cfg hw st)) fuel.
Proof.
  induction fuel as [|fuel IH]; intros i mem st; [reflexivity|].
  simpl. rewrite events_bind, kernels_of_app, compress_xof_kernels, IH,
    compress_xof_view. reflexivity.
Qed.

(** The kernels [blake3_xof_many] calls, given the capability set [f]. *)
Definition xof_many_plan (f : Z) (outblocks : nat) : list (op * tier) :=
  if Nat.eqb outblocks 0 then []
  else if IS_X86 cfg && negb (WIN32 cfg) && negb (NO_AVX512 cfg) && test f AVX512VL
  then [(OpXofMany, Avx512)]
  else repeat (OpCompressXof, spec_single_block_tier cfg f) outblocks.

Lemma xof_many_kernels st cv block bl ctr fl out n mem :
  kernels_of (events (blake3_xof_many portable cfg hw cv block bl ctr fl out n mem st)) =
  xof_many_plan (features_view cfg hw st) n.
Proof.
  unfold blake3_xof_many, xof_many_plan.
  destruct (Nat.eqb n 0); [reflexivity|].
  destruct (IS_X86 cfg); simpl.
  - run_get st.
    destruct (negb (WIN32 cfg) && negb (NO_AVX512 cfg) && test (features_view cfg hw st) AVX512VL).
    + reflexivity.
    + rewrite xof_many_loop_kernels, get_view. reflexivity.
  - apply xof_many_loop_kernels.
Qed.

Lemma xof_many_result st cv block bl ctr fl out n mem :
  result (blake3_xof_many portable cfg hw cv block bl ctr fl out n mem st) =
  write_xof_blocks portable cv block bl ctr fl out 0 n mem.
Proof.
  unfold blake3_xof_many.
  destruct (Nat.eqb n 0) eqn:E.
  - apply Nat.eqb_eq in E; subst n; reflexivity.
  - destruct (IS_X86 cfg); simpl.
    + run_get st. split_ifs; [reflexivity|apply xof_many_loop_result].
    + apply xof_many_loop_result.
Qed.

Lemma hash_many_kernels st inputs ni nb key ctr inc fl fs fe :
  kernels_of (events (blake3_hash_many portable cfg hw inputs ni nb key ctr inc fl fs fe st)) =
  [(OpHashMany, spec_hash_many_tier cfg (features_view cfg hw st))].
Proof.
  unfold blake3_hash_many, spec_hash_many_tier.
  destruct (IS_X86 cfg); simpl.
  - run_get st. rewrite avx512_pair_test, andb_assoc.
    split_ifs; reflexivity.
  - destruct (USE_NEON cfg); reflexivity.
Qed.

Lemma hash_many_result st inputs ni nb key ctr inc fl fs fe :
  result (blake3_hash_many portable cfg hw inputs ni nb key ctr inc fl fs fe st) =
  k_hash_many portable inputs ni nb key ctr inc fl fs fe.
Proof.
  unfold blake3_hash_many.
  destruct (IS_X86 cfg); simpl; [run_get st|]; split_ifs; reflexivity.
Qed.

Lemma simd_degree_result st :
  result (blake3_simd_degree cfg hw st) =
  lane_width (spec_hash_many_tier cfg (features_view cfg hw st)).
Proof.
  unfold blake3_simd_degree, spec_hash_many_tier.
  destruct (IS_X86 cfg); simpl.
  - run_get st. rewrite avx512_pair_test, andb_assoc.
    split_ifs; reflexivity.
  - destruct (USE_NEON cfg); reflexivity.
Qed.

End FacadeLemmas.

(** ** The extended-output block layout *)

Ltac split_cmp :=
  repeat match goal with
         | |- context [?x <=? ?y] => destruct (Z.leb_spec x y)
         | |- context [?x <? ?y] => destruct (Z.ltb_spec x y)
         end.

Lemma write_xof_blocks_spec K cv block bl ctr fl out fuel :
  forall i mem a,
  write_xof_blocks K cv block bl ctr fl out i fuel mem a =
  if (out + 64 * Z.of_nat i <=? a) && (a <? out + 64 * Z.of_nat (i + fuel)) then
    k_compress_xof K cv block bl (u64 (ctr + (a - out) / 64)) fl ((a - out) mod 64)
  else mem a.
Proof.
  induction fuel as [|fuel IH]; intros i mem a; cbn [write_xof_blocks].
  - split_cmp; cbn [andb]; try reflexivity; lia.
  - rewrite IH. unfold write64.
    split_cmp; cbn [andb]; try reflexivity; try lia.
    assert (Q : (a - out) / 64 = Z.of_nat i).
    { symmetry; apply Z.div_unique with (a - out - 64 * Z.of_nat i); lia. }
    assert (R : (a - out) mod 64 = a - (out + 64 * Z.of_nat i)).
    { symmetry; apply Z.mod_unique with (Z.of_nat i); lia. }
    rewrite Q, R. reflexivity.
Qed.

(** ** Concrete builds and hosts *)

(** x86-64, GCC/Clang, no toggles. *)
Definition cfg_x64_gcc : config :=
  mkConfig true false true false false false false false false.

(** A host whose CPU reports SSE2, SSSE3, SSE4.1, AVX, AVX2, AVX512F and
    AVX512VL, with OSXSAVE set and XCR0 = 0xE7. *)
Definition hw_full : hardware :=
  mkHardware
    (fun leaf =>
       if leaf =? 0 then mkRegs 13 0 0 0
       else mkRegs 0 0
              (Z.lor (Z.shiftl 1 28) (Z.lor (Z.shiftl 1 27)
                 (Z.lor (Z.shiftl 1 19) (Z.shiftl 1 9))))
              (Z.shiftl 1 26))
    (fun _ _ => mkRegs 0 (Z.lor (Z.shiftl 1 5) (Z.lor (Z.shiftl 1 16) (Z.shiftl 1 31))) 0 0)
    231 0.

(** The same CPU, but the OSXSAVE bit (leaf 1, ecx bit 27) is clear. *)
Definition hw_no_osxsave : hardware :=
  mkHardware
    (fun leaf =>
       if leaf =? 0 then mkRegs 13 0 0 0
       else mkRegs 0 0
              (Z.lor (Z.shiftl 1 28) (Z.lor (Z.shiftl 1 19) (Z.shiftl 1 9)))
              (Z.shiftl 1 26))
    (fun _ _ => mkRegs 0 (Z.lor (Z.shiftl 1 5) (Z.lor (Z.shiftl 1 16) (Z.shiftl 1 31))) 0 0)
    231 0.

(** Kernels whose extended output encodes the counter and byte index. *)
Definition toy_kernels : kernels :=
  mkKernels (fun cv _ _ _ _ => cv)
            (fun _ _ _ counter _ j => counter * 64 + j)
            (fun _ _ _ _ _ _ _ _ _ => []).

Example detect_full : detect_features cfg_x64_gcc hw_full = 127.
Proof. vm_compute. reflexivity. Qed.

(** §8 "gating correctness": AVX, AVX2 and AVX512 hardware bits are all set,
    yet without OSXSAVE only SSE2, SSSE3 and SSE4.1 are detected. *)
Example detect_no_osxsave : detect_features cfg_x64_gcc hw_no_osxsave = 7.
Proof. vm_compute. reflexivity. Qed.

(** §8 "multi-block counter sequencing": 3 blocks from counter 5. *)
Example xof_many_counters_5_6_7 :
  map (result (blake3_xof_many toy_kernels cfg_x64_gcc hw_full [] [] 64 5 0 0 3
                 (fun _ => 0) init_state)) [0; 63; 64; 128; 191; 192] =
  [5 * 64; 5 * 64 + 63; 6 * 64; 7 * 64; 7 * 64 + 63; 0].
Proof. vm_compute. reflexivity. Qed.

(** The MSVC load path serves a filled cache without probing again. *)
Lemma get_cpu_features_msvc_cached cfg hw st :
  MSC_VER cfg = true -> g_blake3_cpu_features st <> UNDEFINED ->
  blake3_get_cpu_features cfg hw st =
  (g_blake3_cpu_features st, st, [ELoad C_g_blake3_cpu_features]).
Proof.
  intros Hm Hc. unfold blake3_get_cpu_features, load_cell, bind, load.
  rewrite Hm. simpl. apply Z.eqb_neq in Hc. rewrite Hc. reflexivity.
Qed.

(** * Claims *)

(** C1: whatever the [cpuid]/[xgetbv] answers, the set returned by
    [blake3_get_cpu_features] (from any reachable cache state) contains AVX,
    AVX2, AVX512F or AVX512VL only if OSXSAVE (leaf 1 ecx bit 27) is set and
    [(mask & 6) == 6]; it contains AVX512F or AVX512VL only if the maximum
    leaf is at least 7 and [(mask & 224) == 224]. *)
Theorem get_cpu_features_gating cfg hw st :
  cache_ok cfg hw st ->
  let f := result (blake3_get_cpu_features cfg hw st) in
  (test f AVX || test f AVX2 || test f AVX512F || test f AVX512VL = true ->
     test (ecx (hw_cpuid hw 1)) (Z.shiftl 1 27) = true /\ Z.land (xgetbv hw) 6 = 6) /\
  (test f AVX512F || test f AVX512VL = true ->
     eax (hw_cpuid hw 0) >= 7 /\ Z.land (xgetbv hw) 224 = 224).
Proof.
  intros H. cbv zeta.
  rewrite get_result, (view_cache_ok cfg hw st H).
  pose proof (detect_gating cfg hw) as G. cbv zeta in G. exact G.
Qed.

Lemma get_cpu_features_gating_witness :
  cache_ok cfg_x64_gcc hw_no_osxsave init_state /\
  let f := result (blake3_get_cpu_features cfg_x64_gcc hw_no_osxsave init_state) in
  (test f AVX || test f AVX2 || test f AVX512F || test f AVX512VL = true ->
     test (ecx (hw_cpuid hw_no_osxsave 1)) (Z.shiftl 1 27) = true /\
     Z.land (xgetbv hw_no_osxsave) 6 = 6) /\
  (test f AVX512F || test f AVX512VL = true ->
     eax (hw_cpuid hw_no_osxsave 0) >= 7 /\ Z.land (xgetbv hw_no_osxsave) 224 = 224).
Proof.
  split; [apply init_cache_ok|].
  apply (get_cpu_features_gating cfg_x64_gcc hw_no_osxsave init_state).
  apply init_cache_ok.
Defined.

(** C2 (kernels modelled from the spec): every facade operation returns what
    the portable kernel computes, whatever the build, the host and the cache
    state, i.e. whichever tier the dispatch selects. *)
Theorem facade_output_tier_independent portable cfg hw st cv block bl ctr fl out mem n
    inputs ni nb key inc fs fe :
  result (blake3_compress_in_place portable cfg hw cv block bl ctr fl st) =
    k_compress_in_place portable cv block bl ctr fl /\
  result (blake3_compress_xof portable cfg hw cv block bl ctr fl out mem st) =
    write64 mem out (k_compress_xof portable cv block bl ctr fl) /\
  result (blake3_xof_many portable cfg hw cv block bl ctr fl out n mem st) =
    write_xof_blocks portable cv block bl ctr fl out 0 n mem /\
  result (blake3_hash_many portable cfg hw inputs ni nb key ctr inc fl fs fe st) =
    k_hash_many portable inputs ni nb key ctr inc fl fs fe.
Proof.
  split; [apply compress_in_place_result|].
  split; [apply compress_xof_result|].
  split; [apply xof_many_result|apply hash_many_result].
Qed.

(** C3: on a non-MSVC build, [blake3_get_cpu_features] loads
    [g_cpu_features], not the cache [g_blake3_cpu_features] it stores to:
    even when the cache already holds the measured set, the call probes
    again, and since [g_cpu_features] is never written every later call
    probes again too. *)
Theorem get_cpu_features_nonmsvc_reprobes cfg hw st :
  MSC_VER cfg = false -> g_cpu_features st = UNDEFINED ->
  blake3_get_cpu_features cfg hw st =
  (detect_features cfg hw, mkState (detect_features cfg hw) UNDEFINED,
   [ELoad C_g_cpu_features; EProbe;
    EStore C_g_blake3_cpu_features (detect_features cfg hw)]).
Proof.
  intros Hm Hg. unfold blake3_get_cpu_features, load_cell, bind, load, emit, store, ret.
  rewrite Hm. simpl. rewrite Hg. simpl. rewrite Hg. reflexivity.
Qed.

Lemma get_cpu_features_nonmsvc_reprobes_witness :
  let st := mkState (detect_features cfg_x64_gcc hw_full) UNDEFINED in
  MSC_VER cfg_x64_gcc = false /\ g_cpu_features st = UNDEFINED /\
  blake3_get_cpu_features cfg_x64_gcc hw_full st =
  (detect_features cfg_x64_gcc hw_full,
   mkState (detect_features cfg_x64_gcc hw_full) UNDEFINED,
   [ELoad C_g_cpu_features; EProbe;
    EStore C_g_blake3_cpu_features (detect_features cfg_x64_gcc hw_full)]).
Proof.
  cbv zeta. split; [reflexivity|]. split; [reflexivity|].
  apply get_cpu_features_nonmsvc_reprobes; reflexivity.
Defined.

(** C4: [blake3_compress_in_place] and [blake3_compress_xof] call exactly one
    kernel, the first of AVX512VL -> SSE4.1 -> SSE2 -> portable that the
    capability set supports and the toggles allow; never the AVX2 kernel
    (there is no plain-AVX kernel at all). *)
Theorem single_block_priority_chain portable cfg hw st cv block bl ctr fl out mem :
  let t := spec_single_block_tier cfg (features_view cfg hw st) in
  kernels_of (events (blake3_compress_in_place portable cfg hw cv block bl ctr fl st)) =
    [(OpCompressInPlace, t)] /\
  kernels_of (events (blake3_compress_xof portable cfg hw cv block bl ctr fl out mem st)) =
    [(OpCompressXof, t)] /\
  t <> Avx2.
Proof.
  cbv zeta.
  split; [apply compress_in_place_kernels|].
  split; [apply compress_xof_kernels|].
  unfold spec_single_block_tier; simpl.
  repeat match goal with |- context [if ?c then _ else _] => destruct c end;
    discriminate.
Qed.

(** C5: [blake3_hash_many] calls exactly one kernel, the first of
    AVX512 (AVX512F and AVX512VL) -> AVX2 -> SSE4.1 -> SSE2 -> NEON (when
    targeted) -> portable; the AVX512 kernel needs both AVX512 bits. *)
Theorem hash_many_priority_chain portable cfg hw st inputs ni nb key ctr inc fl fs fe :
  let f := features_view cfg hw st in
  kernels_of (events (blake3_hash_many portable cfg hw inputs ni nb key ctr inc fl fs fe st)) =
    [(OpHashMany, spec_hash_many_tier cfg f)] /\
  (spec_hash_many_tier cfg f = Avx512 ->
     test f AVX512F = true /\ test f AVX512VL = true).
Proof.
  cbv zeta. split; [apply hash_many_kernels|].
  unfold spec_hash_many_tier; simpl.
  destruct (IS_X86 cfg && negb (NO_AVX512 cfg) && test (features_view cfg hw st) AVX512F &&
            test (features_view cfg hw st) AVX512VL) eqn:E.
  - intros _. apply andb_true_iff in E as [E1 E2].
    apply andb_true_iff in E1 as [_ E1]. split; assumption.
  - repeat match goal with |- context [if ?c then _ else _] => destruct c end;
      discriminate.
Qed.

(** C6: [blake3_simd_degree] returns the lane width (16/8/4/4/4/1) of the
    kernel [blake3_hash_many] calls from the same state. *)
Theorem simd_degree_matches_hash_many portable cfg hw st inputs ni nb key ctr inc fl fs fe :
  map (fun p => lane_width (snd p))
    (kernels_of (events (blake3_hash_many portable cfg hw inputs ni nb key ctr inc fl fs fe st))) =
  [result (blake3_simd_degree cfg hw st)].
Proof.
  rewrite hash_many_kernels, simd_degree_result. reflexivity.
Qed.

(** C7: no operation ever calls the kernel of a tier its compile-time
    toggle ([BLAKE3_NO_AVX512], [_AVX2], [_SSE41], [_SSE2]) disables, whatever
    the capability set reports. *)
Theorem toggles_never_selected portable cfg hw st cv block bl ctr fl out mem n
    inputs ni nb key inc fs fe :
  Forall (fun p => toggle_allows cfg (snd p) = true)
    (kernels_of (events (blake3_compress_in_place portable cfg hw cv block bl ctr fl st)) ++
     kernels_of (events (blake3_compress_xof portable cfg hw cv block bl ctr fl out mem st)) ++
     kernels_of (events (blake3_xof_many portable cfg hw cv block bl ctr fl out n mem st)) ++
     kernels_of (events (blake3_hash_many portable cfg hw inputs ni nb key ctr inc fl fs fe st))).
Proof.
  rewrite compress_in_place_kernels, compress_xof_kernels, xof_many_kernels,
    hash_many_kernels, !Forall_app.
  split; [constructor; [apply single_block_tier_allowed|constructor]|].
  split; [constructor; [apply single_block_tier_allowed|constructor]|].
  split; [|constructor; [apply hash_many_tier_allowed|constructor]].
  unfold xof_many_plan. destruct (Nat.eqb n 0); [constructor|].
  destruct (IS_X86 cfg && negb (WIN32 cfg) && negb (NO_AVX512 cfg) &&
            test (features_view cfg hw st) AVX512VL) eqn:E.
  - apply andb_true_iff in E as [E _]. apply andb_true_iff in E as [_ E].
    constructor; [exact E|constructor].
  - apply Forall_forall. intros x Hx. apply repeat_spec in Hx. subst x.
    apply single_block_tier_allowed.
Qed.

(** C8: for [N >= 1], the buffer [blake3_xof_many] leaves behind holds, at
    [out + 64*i + j], byte [j] of what [blake3_compress_xof] produces for
    counter [counter + i] (on [uint64_t]), for every [i < N]; every other
    byte is untouched.  This holds for every build, so also when the AVX512VL
    fast path (non-Windows only) is taken. *)
Theorem xof_many_is_compress_xof_sequence portable cfg hw st cv block bl counter flags
    out N mem :
  (1 <= N)%nat ->
  forall a,
  result (blake3_xof_many portable cfg hw cv block bl counter flags out N mem st) a =
  if (out <=? a) && (a <? out + 64 * Z.of_nat N) then
    result (blake3_compress_xof portable cfg hw cv block bl
              (u64 (counter + (a - out) / 64)) flags 0 mem st) ((a - out) mod 64)
  else mem a.
Proof.
  intros _ a.
  rewrite xof_many_result, compress_xof_result, write_xof_blocks_spec.
  unfold write64.
  replace (out + 64 * Z.of_nat 0) with out by lia.
  rewrite Nat.add_0_l.
  destruct ((out <=? a) && (a <? out + 64 * Z.of_nat N)); [|reflexivity].
  pose proof (Z.mod_pos_bound (a - out) 64 ltac:(lia)).
  split_cmp; cbn [andb]; try lia.
  rewrite Z.sub_0_r. reflexivity.
Qed.

Lemma xof_many_is_compress_xof_sequence_witness :
  (1 <= 3)%nat /\
  forall a,
  result (blake3_xof_many toy_kernels cfg_x64_gcc hw_full [] [] 64 5 0 0 3
            (fun _ => 0) init_state) a =
  if (0 <=? a) && (a <? 0 + 64 * Z.of_nat 3) then
    result (blake3_compress_xof toy_kernels cfg_x64_gcc hw_full [] [] 64
              (u64 (5 + (a - 0) / 64)) 0 0 (fun _ => 0) init_state) ((a - 0) mod 64)
  else (fun _ => 0) a.
Proof.
  split; [lia|].
  apply xof_many_is_compress_xof_sequence. lia.
Defined.

(** C9: with [outblocks = 0], [blake3_xof_many] returns the buffer as it
    was, leaves the globals alone and has no effect at all: no load of the
    capability cache, no probe, no kernel call. *)
Theorem xof_many_zero_blocks_noop portable cfg hw st cv block bl ctr fl out mem :
  blake3_xof_many portable cfg hw cv block bl ctr fl out 0 mem st = (mem, st, []).
Proof. reflexivity. Qed.

(** C10: the SSSE3 bit is never consulted by dispatch: from two states whose
    capability sets differ only in SSSE3, every operation calls the same
    kernels and [blake3_simd_degree] returns the same value. *)
Theorem ssse3_never_consulted portable cfg hw st1 st2 cv block bl ctr fl out mem n
    inputs ni nb key inc fs fe :
  Z.lor (features_view cfg hw st1) SSSE3 = Z.lor (features_view cfg hw st2) SSSE3 ->
  kernels_of (events (blake3_compress_in_place portable cfg hw cv block bl ctr fl st1)) =
    kernels_of (events (blake3_compress_in_place portable cfg hw cv block bl ctr fl st2)) /\
  kernels_of (events (blake3_compress_xof portable cfg hw cv block bl ctr fl out mem st1)) =
    kernels_of (events (blake3_compress_xof portable cfg hw cv block bl ctr fl out mem st2)) /\
  kernels_of (events (blake3_xof_many portable cfg hw cv block bl ctr fl out n mem st1)) =
    kernels_of (events (blake3_xof_many portable cfg hw cv block bl ctr fl out n mem st2)) /\
  kernels_of (events (blake3_hash_many portable cfg hw inputs ni nb key ctr inc fl fs fe st1)) =
    kernels_of (events (blake3_hash_many portable cfg hw inputs ni nb key ctr inc fl fs fe st2)) /\
  result (blake3_simd_degree cfg hw st1) = result (blake3_simd_degree cfg hw st2).
Proof.
  intros H.
  rewrite !compress_in_place_kernels, !compress_xof_kernels, !xof_many_kernels,
    !hash_many_kernels, !simd_degree_result.
  rewrite (single_block_tier_ssse3 cfg _ _ H), (hash_many_tier_ssse3 cfg _ _ H).
  unfold xof_many_plan.
  rewrite (test_ssse3_irrelevant _ _ AVX512VL H) by reflexivity.
  rewrite (single_block_tier_ssse3 cfg _ _ H).
  repeat split.
Qed.

Lemma ssse3_never_consulted_witness :
  Z.lor (features_view cfg_x64_gcc hw_full (mkState 7 7)) SSSE3 =
    Z.lor (features_view cfg_x64_gcc hw_full (mkState 5 5)) SSSE3 /\
  let st1 := mkState 7 7 in
  let st2 := mkState 5 5 in
  kernels_of (events (blake3_compress_in_place toy_kernels cfg_x64_gcc hw_full [] [] 64 0 0 st1)) =
    kernels_of (events (blake3_compress_in_place toy_kernels cfg_x64_gcc hw_full [] [] 64 0 0 st2)) /\
  kernels_of (events (blake3_compress_xof toy_kernels cfg_x64_gcc hw_full [] [] 64 0 0 0 (fun _ => 0) st1)) =
    kernels_of (events (blake3_compress_xof toy_kernels cfg_x64_gcc hw_full [] [] 64 0 0 0 (fun _ => 0) st2)) /\
  kernels_of (events (blake3_xof_many toy_kernels cfg_x64_gcc hw_full [] [] 64 0 0 0 2 (fun _ => 0) st1)) =
    kernels_of (events (blake3_xof_many toy_kernels cfg_x64_gcc hw_full [] [] 64 0 0 0 2 (fun _ => 0) st2)) /\
  kernels_of (events (blake3_hash_many toy_kernels cfg_x64_gcc hw_full [] 0 1 [] 0 true 0 0 0 st1)) =
    kernels_of (events (blake3_hash_many toy_kernels cfg_x64_gcc hw_full [] 0 1 [] 0 true 0 0 0 st2)) /\
  result (blake3_simd_degree cfg_x64_gcc hw_full st1) = result (blake3_simd_degree cfg_x64_gcc hw_full st2).
Proof.
  split; [vm_compute; reflexivity|].
  cbv zeta. apply ssse3_never_consulted. vm_compute. reflexivity.
Defined.

(** * Further properties of the dispatch code *)

Ltac detect_cases :=
  cbv zeta; unfold detect_features; cbv zeta;
  repeat match goal with
         | |- context [if ?c then _ else _] => let E := fresh "E" in destruct c eqn:E
         end.

(** The SSE tiers: SSE2 is unconditional on x86-64 and otherwise leaf-1 edx
    bit 26; SSSE3 is leaf-1 ecx bit 9; SSE4.1 is leaf-1 ecx bit 19.  None of
    them depends on OSXSAVE or the XCR0 mask. *)
Theorem detect_sse_bits cfg hw :
  let f := detect_features cfg hw in
  let r1 := hw_cpuid hw 1 in
  test f SSE2 = AMD64 cfg || test (edx r1) (Z.shiftl 1 26) /\
  test f SSSE3 = test (ecx r1) (Z.shiftl 1 9) /\
  test f SSE41 = test (ecx r1) (Z.shiftl 1 19).
Proof. detect_cases; vm_compute; auto. Qed.

(** AVX is reported exactly when OSXSAVE is set, XCR0 enables the SSE and
    AVX states, and leaf-1 ecx bit 28 is set. *)
Theorem detect_avx_iff cfg hw :
  let f := detect_features cfg hw in
  let r1 := hw_cpuid hw 1 in
  test f AVX =
  test (ecx r1) (Z.shiftl 1 27) && (Z.land (xgetbv hw) 6 =? 6) &&
  test (ecx r1) (Z.shiftl 1 28).
Proof. detect_cases; vm_compute; reflexivity. Qed.

(** AVX2 is reported exactly when OSXSAVE is set, XCR0 enables the SSE and
    AVX states, [max_id >= 7] and leaf-7 ebx bit 5 is set; it does not
    require the AVX bit (leaf-1 ecx bit 28). *)
Theorem detect_avx2_iff cfg hw :
  let f := detect_features cfg hw in
  test f AVX2 =
  test (ecx (hw_cpuid hw 1)) (Z.shiftl 1 27) && (Z.land (xgetbv hw) 6 =? 6) &&
  (int_of_u32 (eax (hw_cpuid hw 0)) >=? 7) &&
  test (ebx (hw_cpuidex hw 7 0)) (Z.shiftl 1 5).
Proof. detect_cases; vm_compute; reflexivity. Qed.

(** AVX512F and AVX512VL are reported exactly when, in addition to the AVX2
    gates, XCR0 enables the three AVX512 states and leaf-7 ebx bit 16
    (resp. bit 31) is set; neither depends on the other nor on AVX2. *)
Theorem detect_avx512_iff cfg hw :
  let f := detect_features cfg hw in
  let gate :=
    test (ecx (hw_cpuid hw 1)) (Z.shiftl 1 27) && (Z.land (xgetbv hw) 6 =? 6) &&
    (int_of_u32 (eax (hw_cpuid hw 0)) >=? 7) && (Z.land (xgetbv hw) 224 =? 224) in
  test f AVX512F = gate && test (ebx (hw_cpuidex hw 7 0)) (Z.shiftl 1 16) /\
  test f AVX512VL = gate && test (ebx (hw_cpuidex hw 7 0)) (Z.shiftl 1 31).
Proof. detect_cases; vm_compute; auto. Qed.

(** [max_id] is a signed [int]: a leaf-0 [eax] of [2^31] or more reads as
    negative, so leaf 7 is never queried and AVX2, AVX512F and AVX512VL are
    never reported, whatever leaf 7 and XCR0 say. *)
Theorem detect_high_max_leaf cfg hw :
  2 ^ 31 <= eax (hw_cpuid hw 0) < 2 ^ 32 ->
  let f := detect_features cfg hw in
  test f AVX2 = false /\ test f AVX512F = false /\ test f AVX512VL = false.
Proof.
  intros H.
  assert (E : (int_of_u32 (eax (hw_cpuid hw 0)) >=? 7) = false).
  { unfold int_of_u32.
    destruct (Z.ltb_spec (eax (hw_cpuid hw 0)) (2 ^ 31)); [lia|].
    rewrite Z.geb_leb. apply Z.leb_gt. lia. }
  pose proof (detect_avx2_iff cfg hw) as A2.
  pose proof (detect_avx512_iff cfg hw) as [A5 A6].
  cbv zeta in *. rewrite E, !andb_false_r in A2. rewrite E in A5, A6.
  rewrite !andb_false_r, !andb_false_l in A5, A6.
  auto.
Qed.

(** The probe sets only the seven tier bits: its result lies in [0, 128) and
    so is never the [UNDEFINED] sentinel. *)
Theorem detect_range cfg hw :
  0 <= detect_features cfg hw < 128 /\ detect_features cfg hw <> UNDEFINED.
Proof.
  detect_cases; unfold Z.le, Z.lt; repeat split; intro H; vm_compute in H; discriminate H.
Qed.

Ltac destruct_ifs :=
  repeat match goal with |- context [if ?c then _ else _] => destruct c end.

Section CacheEffects.

Variable portable : kernels.
Variable cfg : config.
Variable hw : hardware.

(** A store event writes the measured set into [g_blake3_cpu_features]. *)
Definition store_ok (e : event) : Prop :=
  match e with
  | EStore c v => c = C_g_blake3_cpu_features /\ v = detect_features cfg hw
  | _ => True
  end.

(** A computation that keeps the capability set the next call sees, never
    writes [g_cpu_features] and stores nothing but the measured set. *)
Definition good {A} (m : M A) : Prop :=
  forall st,
  features_view cfg hw (final (m st)) = features_view cfg hw st /\
  g_cpu_features (final (m st)) = g_cpu_features st /\
  Forall store_ok (events (m st)).

Lemma good_ret {A} (a : A) : good (ret a).
Proof. intros st; repeat split; constructor. Qed.

Lemma good_emit_kernel o t : good (emit (EKernel o t)).
Proof. intros st; repeat split; repeat constructor. Qed.

Lemma good_bind {A B} (m : M A) (k : A -> M B) :
  good m -> (forall a, good (k a)) -> good (bind m k).
Proof.
  intros Hm Hk st.
  rewrite events_bind, final_bind.
  destruct (Hm st) as [V1 [G1 S1]].
  destruct (Hk (result (m st)) (final (m st))) as [V2 [G2 S2]].
  rewrite V2, G2. repeat split; auto.
  apply Forall_app; split; assumption.
Qed.

Lemma good_get : good (blake3_get_cpu_features cfg hw).
Proof.
  intros st. split; [apply get_view|].
  unfold blake3_get_cpu_features, bind, load, final, events; simpl.
  destruct (read_cell (load_cell cfg) st =? UNDEFINED); simpl;
    repeat split; repeat constructor.
Qed.

Ltac good_steps :=
  repeat (first
    [ apply good_ret | apply good_emit_kernel | apply good_get
    | apply good_bind; [| intro]
    | match goal with |- good (if ?c then _ else _) => destruct c end ]).

Lemma good_compress_in_place cv block bl ctr fl :
  good (blake3_compress_in_place portable cfg hw cv block bl ctr fl).
Proof.
  unfold blake3_compress_in_place, call_compress_in_place. good_steps.
Qed.

Lemma good_compress_xof cv block bl ctr fl out mem :
  good (blake3_compress_xof portable cfg hw cv block bl ctr fl out mem).
Proof.
  unfold blake3_compress_xof, call_compress_xof. good_steps.
Qed.

Lemma good_xof_many_loop cv block bl ctr fl out fuel :
  forall i mem, good (xof_many_loop portable cfg hw cv block bl ctr fl out i fuel mem).
Proof.
  induction fuel as [|fuel IH]; intros i mem; simpl; [apply good_ret|].
  apply good_bind; [apply good_compress_xof|intro; apply IH].
Qed.

Lemma good_xof_many cv block bl ctr fl out n mem :
  good (blake3_xof_many portable cfg hw cv block bl ctr fl out n mem).
Proof.
  unfold blake3_xof_many, call_xof_many_avx512. cbv zeta.
  good_steps; apply good_xof_many_loop.
Qed.

Lemma good_hash_many inputs ni nb key ctr inc fl fs fe :
  good (blake3_hash_many portable cfg hw inputs ni nb key ctr inc fl fs fe).
Proof.
  unfold blake3_hash_many, call_hash_many. cbv zeta. good_steps.
Qed.

Lemma good_simd_degree : good (blake3_simd_degree cfg hw).
Proof. unfold blake3_simd_degree. cbv zeta. good_steps. Qed.

End CacheEffects.

(** An event that is a kernel call (no load, store or probe). *)
Definition is_kernel_event (e : event) : Prop :=
  match e with EKernel _ _ => True | _ => False end.

(** A computation that leaves the globals untouched and only calls kernels. *)
Definition cache_free {A} (m : M A) : Prop :=
  forall st, final (m st) = st /\ Forall is_kernel_event (events (m st)).

Lemma cache_free_ret {A} (a : A) : cache_free (ret a).
Proof. intros st; split; [reflexivity|constructor]. Qed.

Lemma cache_free_emit_kernel o t : cache_free (emit (EKernel o t)).
Proof. intros st; split; [reflexivity|repeat constructor]. Qed.

Lemma cache_free_bind {A B} (m : M A) (k : A -> M B) :
  cache_free m -> (forall a, cache_free (k a)) -> cache_free (bind m k).
Proof.
  intros Hm Hk st. rewrite events_bind, final_bind.
  destruct (Hm st) as [F1 K1].
  destruct (Hk (result (m st)) (final (m st))) as [F2 K2].
  rewrite F2. split; [exact F1|].
  apply Forall_app; split; assumption.
Qed.

Ltac cache_free_steps :=
  repeat (first
    [ apply cache_free_ret | apply cache_free_emit_kernel
    | apply cache_free_bind; [| intro]
    | match goal with |- cache_free (if ?c then _ else _) => destruct c end ]).

(** ** Theorems *)

(** Two successive calls of [blake3_get_cpu_features] return the same
    capability set, on every build and from every state. *)
Theorem get_cpu_features_repeat_same cfg hw st :
  result (blake3_get_cpu_features cfg hw (final (blake3_get_cpu_features cfg hw st))) =
  result (blake3_get_cpu_features cfg hw st).
Proof. rewrite !get_result, get_view. reflexivity. Qed.

(** On an MSVC build, one call fills [g_blake3_cpu_features] with a value
    other than [UNDEFINED], and the next call only loads it: no probe, no
    store. *)
Theorem get_cpu_features_msvc_fills_cache cfg hw st :
  MSC_VER cfg = true ->
  g_blake3_cpu_features (final (blake3_get_cpu_features cfg hw st)) <> UNDEFINED /\
  events (blake3_get_cpu_features cfg hw (final (blake3_get_cpu_features cfg hw st))) =
    [ELoad C_g_blake3_cpu_features].
Proof.
  intros Hm.
  assert (F : g_blake3_cpu_features (final (blake3_get_cpu_features cfg hw st)) <> UNDEFINED).
  { unfold blake3_get_cpu_features, load_cell, bind, load, final. rewrite Hm. simpl.
    destruct (Z.eqb_spec (g_blake3_cpu_features st) UNDEFINED) as [E|E];
      cbn -[UNDEFINED detect_features].
    - apply detect_range.
    - exact E. }
  split; [exact F|].
  unfold blake3_get_cpu_features at 1. unfold load_cell, bind, load, events.
  rewrite Hm. simpl. apply Z.eqb_neq in F. rewrite F. reflexivity.
Qed.

Lemma get_cpu_features_msvc_fills_cache_witness :
  let cfg := mkConfig true true true true false false false false false in
  MSC_VER cfg = true /\
  g_blake3_cpu_features (final (blake3_get_cpu_features cfg hw_full init_state)) <> UNDEFINED /\
  events (blake3_get_cpu_features cfg hw_full
            (final (blake3_get_cpu_features cfg hw_full init_state))) =
    [ELoad C_g_blake3_cpu_features].
Proof.
  cbv zeta. split; [reflexivity|].
  apply get_cpu_features_msvc_fills_cache. reflexivity.
Defined.

(** No operation ever writes [g_cpu_features], and every store any operation
    performs writes the measured set into [g_blake3_cpu_features]. *)
Theorem operations_store_only_measured_set portable cfg hw st cv block bl ctr fl out mem n
    inputs ni nb key inc fs fe :
  let ok {A} (m : M A) :=
    g_cpu_features (final (m st)) = g_cpu_features st /\
    Forall (store_ok cfg hw) (events (m st)) in
  ok (blake3_get_cpu_features cfg hw) /\
  ok (blake3_compress_in_place portable cfg hw cv block bl ctr fl) /\
  ok (blake3_compress_xof portable cfg hw cv block bl ctr fl out mem) /\
  ok (blake3_xof_many portable cfg hw cv block bl ctr fl out n mem) /\
  ok (blake3_hash_many portable cfg hw inputs ni nb key ctr inc fl fs fe) /\
  ok (blake3_simd_degree cfg hw).
Proof.
  cbv zeta.
  repeat split;
    first [ apply (good_get cfg hw st)
          | apply (good_compress_in_place portable cfg hw)
          | apply (good_compress_xof portable cfg hw)
          | apply (good_xof_many portable cfg hw)
          | apply (good_hash_many portable cfg hw)
          | apply (good_simd_degree cfg hw) ].
Qed.

(** Every operation leaves unchanged the capability set the next call of
    [blake3_get_cpu_features] returns: in any sequence of operations, all
    dispatch on the same set. *)
Theorem operations_preserve_capability_set portable cfg hw st cv block bl ctr fl out mem n
    inputs ni nb key inc fs fe :
  let same {A} (m : M A) := features_view cfg hw (final (m st)) = features_view cfg hw st in
  same (blake3_compress_in_place portable cfg hw cv block bl ctr fl) /\
  same (blake3_compress_xof portable cfg hw cv block bl ctr fl out mem) /\
  same (blake3_xof_many portable cfg hw cv block bl ctr fl out n mem) /\
  same (blake3_hash_many portable cfg hw inputs ni nb key ctr inc fl fs fe) /\
  same (blake3_simd_degree cfg hw).
Proof.
  cbv zeta.
  repeat split;
    first [ apply (good_compress_in_place portable cfg hw)
          | apply (good_compress_xof portable cfg hw)
          | apply (good_xof_many portable cfg hw)
          | apply (good_hash_many portable cfg hw)
          | apply (good_simd_degree cfg hw) ].
Qed.

(** On a non-x86 build, no operation touches the capability globals or
    probes: the state is unchanged and the only effects are kernel calls. *)
Theorem non_x86_no_cache_access portable cfg hw st cv block bl ctr fl out mem n
    inputs ni nb key inc fs fe :
  IS_X86 cfg = false ->
  let pure {A} (m : M A) :=
    final (m st) = st /\ Forall is_kernel_event (events (m st)) in
  pure (blake3_compress_in_place portable cfg hw cv block bl ctr fl) /\
  pure (blake3_compress_xof portable cfg hw cv block bl ctr fl out mem) /\
  pure (blake3_xof_many portable cfg hw cv block bl ctr fl out n mem) /\
  pure (blake3_hash_many portable cfg hw inputs ni nb key ctr inc fl fs fe) /\
  pure (blake3_simd_degree cfg hw).
Proof.
  intros Hx. cbv zeta.
  assert (Hxof : forall ctr out mem,
             cache_free (blake3_compress_xof portable cfg hw cv block bl ctr fl out mem)).
  { intros c o m. unfold blake3_compress_xof, call_compress_xof. rewrite Hx.
    cache_free_steps. }
  assert (Hloop : forall fuel i mem,
             cache_free (xof_many_loop portable cfg hw cv block bl ctr fl out i fuel mem)).
  { induction fuel as [|fuel IH]; intros i m; cbn [xof_many_loop];
      [apply cache_free_ret|].
    apply cache_free_bind; [apply Hxof|intro; apply IH]. }
  assert (H1 : cache_free (blake3_compress_in_place portable cfg hw cv block bl ctr fl)).
  { unfold blake3_compress_in_place, call_compress_in_place. rewrite Hx.
    cache_free_steps. }
  assert (H3 : cache_free (blake3_xof_many portable cfg hw cv block bl ctr fl out n mem)).
  { unfold blake3_xof_many. rewrite Hx. cbv zeta.
    destruct (Nat.eqb n 0); [apply cache_free_ret|apply Hloop]. }
  assert (H4 : cache_free (blake3_hash_many portable cfg hw inputs ni nb key ctr inc fl fs fe)).
  { unfold blake3_hash_many, call_hash_many. rewrite Hx. cbv zeta.
    cache_free_steps. }
  assert (H5 : cache_free (blake3_simd_degree cfg hw)).
  { unfold blake3_simd_degree. rewrite Hx. cbv zeta. cache_free_steps. }
  split; [apply H1|split; [apply Hxof|split; [apply H3|split; [apply H4|apply H5]]]].
Qed.

Lemma non_x86_no_cache_access_witness :
  let cfg := mkConfig false false false false false false false false true in
  IS_X86 cfg = false /\
  let pure {A} (m : M A) :=
    final (m init_state) = init_state /\ Forall is_kernel_event (events (m init_state)) in
  pure (blake3_compress_in_place toy_kernels cfg hw_full [] [] 64 0 0) /\
  pure (blake3_compress_xof toy_kernels cfg hw_full [] [] 64 0 0 0 (fun _ => 0)) /\
  pure (blake3_xof_many toy_kernels cfg hw_full [] [] 64 0 0 0 2 (fun _ => 0)) /\
  pure (blake3_hash_many toy_kernels cfg hw_full [] 0 1 [] 0 true 0 0 0) /\
  pure (blake3_simd_degree cfg hw_full).
Proof.
  cbv zeta. split; [reflexivity|].
  apply (non_x86_no_cache_access toy_kernels _ hw_full init_state [] [] 64 0 0 0
           (fun _ => 0) 2 [] 0 1 [] true 0 0). reflexivity.
Defined.

(** On Windows builds [blake3_xof_many] never calls the AVX512
    multi-block kernel: it always runs [outblocks] single-block
    [blake3_compress_xof] calls. *)
Theorem xof_many_win32_no_avx512_kernel portable cfg hw st cv block bl ctr fl out n mem :
  WIN32 cfg = true ->
  kernels_of (events (blake3_xof_many portable cfg hw cv block bl ctr fl out n mem st)) =
  repeat (OpCompressXof, spec_single_block_tier cfg (features_view cfg hw st)) n.
Proof.
  intros Hw. rewrite xof_many_kernels. unfold xof_many_plan. rewrite Hw.
  destruct (Nat.eqb_spec n 0) as [->|_]; [reflexivity|].
  rewrite andb_false_r, !andb_false_l. reflexivity.
Qed.

Lemma xof_many_win32_no_avx512_kernel_witness :
  let cfg := mkConfig true true true true false false false false false in
  WIN32 cfg = true /\
  kernels_of (events (blake3_xof_many toy_kernels cfg hw_full [] [] 64 0 0 0 2
                        (fun _ => 0) init_state)) =
  repeat (OpCompressXof, spec_single_block_tier cfg (features_view cfg hw_full init_state)) 2.
Proof.
  cbv zeta. split; [reflexivity|].
  apply xof_many_win32_no_avx512_kernel. reflexivity.
Defined.

(** [blake3_compress_xof] writes exactly the 64 bytes [out[0..63]]: every
    other byte of the buffer is left as it was. *)
Theorem compress_xof_frame portable cfg hw st cv block bl ctr fl out mem a :
  a < out \/ out + 64 <= a ->
  result (blake3_compress_xof portable cfg hw cv block bl ctr fl out mem st) a = mem a.
Proof.
  intros Ha. rewrite compress_xof_result. unfold write64.
  destruct (Z.leb_spec out a), (Z.ltb_spec a (out + 64)); simpl; try reflexivity; lia.
Qed.

Lemma compress_xof_frame_witness :
  (64 < 0 \/ 0 + 64 <= 64) /\
  result (blake3_compress_xof toy_kernels cfg_x64_gcc hw_full [] [] 64 0 0 0
            (fun _ => 0) init_state) 64 = (fun _ => 0) 64.
Proof.
  split; [lia|]. apply compress_xof_frame. lia.
Defined.

(** [blake3_simd_degree] only ever returns 1, 4, 8 or 16. *)
Theorem simd_degree_values cfg hw st :
  In (result (blake3_simd_degree cfg hw st)) [1; 4; 8; 16].
Proof.
  rewrite simd_degree_result.
  destruct (spec_hash_many_tier cfg (features_view cfg hw st)); simpl; tauto.
Qed.

(** The [hw_full] CPU with a leaf-0 [eax] of [2^31]. *)
Definition hw_high_leaf : hardware :=
  mkHardware
    (fun leaf => if leaf =? 0 then mkRegs (2 ^ 31) 0 0 0 else hw_cpuid hw_full leaf)
    (hw_cpuidex hw_full) (hw_xcr0_eax hw_full) (hw_xcr0_edx hw_full).

Lemma detect_high_max_leaf_witness :
  2 ^ 31 <= eax (hw_cpuid hw_high_leaf 0) < 2 ^ 32 /\
  let f := detect_features cfg_x64_gcc hw_high_leaf in
  test f AVX2 = false /\ test f AVX512F = false /\ test f AVX512VL = false.
Proof.
  assert (H : 2 ^ 31 <= eax (hw_cpuid hw_high_leaf 0) < 2 ^ 32)
    by (unfold hw_high_leaf; simpl; lia).
  split; [exact H|].
  apply detect_high_max_leaf. exact H.
Defined.
